(** * A shallow embedding of dlnap.py (DLNA discovery and playback)

    Python strings are modelled as lists of Unicode code points, byte
    strings as lists of byte values (both [list Z]).  The regular
    expressions of the module are run by a small backtracking matcher
    with Python's greedy priority order, [re.findall] is the left-to-right
    scan over it, and the stateful parts (UDP discovery socket, TCP
    command sends) run in a state-and-exception monad whose state is the
    log of socket actions together with the outcomes of the network. *)

From Stdlib Require Import ZArith String Ascii List Bool Lia.
Import ListNotations.
Open Scope Z_scope.

(** ** Python strings *)

Definition pystr := list Z.

(** A source literal.  Inside the Rocq literal a backquote stands for
    the double quote of the Python literal (the module uses no backquote). *)
Definition u (s : string) : pystr :=
  map (fun c => let n := Z.of_nat (nat_of_ascii c) in
                if n =? 96 then 34 else n) (list_ascii_of_string s).

Definition CR : Z := 13.
Definition LF : Z := 10.
Definition CRLF : pystr := [CR; LF].

Fixpoint prefixb (p s : pystr) : bool :=
  match p, s with
  | [], _ => true
  | c :: p', d :: s' => (c =? d) && prefixb p' s'
  | _ :: _, [] => false
  end.

(** [sub in s] *)
Fixpoint py_contains (sub s : pystr) : bool :=
  prefixb sub s ||
  match s with
  | [] => false
  | _ :: s' => py_contains sub s'
  end.

(** [s.replace(old, new)] for a non-empty [old]: every non-overlapping
    occurrence, scanned left to right. *)
Fixpoint replace_go (fuel : nat) (old new s : pystr) : pystr :=
  match fuel with
  | O => s
  | S f =>
      match s with
      | [] => []
      | c :: s' =>
          if prefixb old s then new ++ replace_go f old new (skipn (length old) s)
          else c :: replace_go f old new s'
      end
  end.

Definition py_replace (old new s : pystr) : pystr :=
  replace_go (length s) old new s.

(** [s.split(sep)] for a non-empty [sep]. *)
Fixpoint split_go (fuel : nat) (sep s cur : pystr) : list pystr :=
  match fuel with
  | O => [rev cur ++ s]
  | S f =>
      match s with
      | [] => [rev cur]
      | c :: s' =>
          if prefixb sep s then rev cur :: split_go f sep (skipn (length sep) s) []
          else split_go f sep s' (c :: cur)
      end
  end.

Definition py_split (sep s : pystr) : list pystr :=
  split_go (S (length s)) sep s [].

(** [str(n)] for a natural number. *)
Fixpoint dec_go (fuel n : nat) (acc : pystr) : pystr :=
  match fuel with
  | O => acc
  | S f =>
      let acc' := Z.of_nat (48 + n mod 10) :: acc in
      match (n / 10)%nat with
      | O => acc'
      | m => dec_go f m acc'
      end
  end.

Definition py_str_nat (n : nat) : pystr := dec_go (S n) n [].

(** Python's [\d] on a [str] pattern matches the Unicode decimal digits
    (category Nd).  They come in runs of ten consecutive code points with
    the values 0 to 9; these are the first code points of the runs
    (Unicode 14.0, the database of Python 3.11). *)
Definition nd_zeros : list Z :=
  [48; 1632; 1776; 1984; 2406; 2534; 2662; 2790; 2918; 3046;
   3174; 3302; 3430; 3558; 3664; 3792; 3872; 4160; 4240; 6112;
   6160; 6470; 6608; 6784; 6800; 6992; 7088; 7232; 7248; 42528;
   43216; 43264; 43472; 43504; 43600; 44016; 65296; 66720; 68912; 69734;
   69872; 69942; 70096; 70384; 70736; 70864; 71248; 71360; 71472; 71904;
   72016; 72784; 73040; 73120; 92768; 92864; 93008; 120782; 120792; 120802;
   120812; 120822; 123200; 123632; 125264; 130032].

(** The first code point of the run holding [c], if [c] is a decimal digit. *)
Definition digit_zero (c : Z) : option Z :=
  find (fun z => (z <=? c) && (c <? z + 10)) nd_zeros.

(** [\d] *)
Definition digit (c : Z) : bool :=
  match digit_zero c with Some _ => true | None => false end.

(** The value [int()] gives a decimal digit. *)
Definition digit_value (c : Z) : Z :=
  match digit_zero c with Some z => c - z | None => 0 end.

(** [int(digits)] of a run of decimal digits. *)
Definition py_int (ds : pystr) : Z :=
  fold_left (fun acc c => acc * 10 + digit_value c) ds 0.

(** The UTF-8 bytes of a code point that is not a surrogate. *)
Definition utf8_cp (c : Z) : list Z :=
  if c <? 128 then [c]
  else if c <? 2048 then
    [Z.lor 192 (Z.shiftr c 6); Z.lor 128 (Z.land c 63)]
  else if c <? 65536 then
    [Z.lor 224 (Z.shiftr c 12); Z.lor 128 (Z.land (Z.shiftr c 6) 63);
     Z.lor 128 (Z.land c 63)]
  else
    [Z.lor 240 (Z.shiftr c 18); Z.lor 128 (Z.land (Z.shiftr c 12) 63);
     Z.lor 128 (Z.land (Z.shiftr c 6) 63); Z.lor 128 (Z.land c 63)].

(** The UTF-8 bytes of a string of code points that are not surrogates. *)
Definition encode (s : pystr) : list Z := flat_map utf8_cp s.

Definition is_surrogate (c : Z) : bool := (55296 <=? c) && (c <=? 57343).

(** [str.encode()] with the default UTF-8 codec and strict errors:
    [None] for the [UnicodeEncodeError] raised by a lone surrogate (as a
    command-line argument decoded with [surrogateescape] may hold). *)
Definition py_encode (s : pystr) : option (list Z) :=
  if existsb is_surrogate s then None else Some (encode s).

(** ** Regular expressions: the fragment used by the module *)

Inductive rx :=
| REps
| RChr (c : Z)
| RCls (p : Z -> bool)    (* one character of a class *)
| RSeq (a b : rx)
| RStar (p : Z -> bool)   (* greedy [x*] over a one-character class *)
| RGrp (a : rx).          (* the capturing group *)

Definition mres := (pystr * option pystr)%type.

(** Greedy star: take as many characters as the class allows, then give
    them back one at a time until the continuation succeeds. *)
Fixpoint star_m (p : Z -> bool) (s : pystr) (cap : option pystr)
    (k : pystr -> option pystr -> option mres) : option mres :=
  match s with
  | c :: s' =>
      if p c then
        match star_m p s' cap k with
        | Some r => Some r
        | None => k s cap
        end
      else k s cap
  | [] => k [] cap
  end.

Fixpoint rx_m (r : rx) (s : pystr) (cap : option pystr)
    (k : pystr -> option pystr -> option mres) : option mres :=
  match r with
  | REps => k s cap
  | RChr c =>
      match s with
      | d :: s' => if c =? d then k s' cap else None
      | [] => None
      end
  | RCls p =>
      match s with
      | d :: s' => if p d then k s' cap else None
      | [] => None
      end
  | RSeq a b => rx_m a s cap (fun s' cap' => rx_m b s' cap' k)
  | RStar p => star_m p s cap k
  | RGrp a => rx_m a s cap (fun s' _ => k s' (Some (firstn (length s - length s') s)))
  end.

Definition match_at (r : rx) (s : pystr) : option mres :=
  rx_m r s None (fun rest cap => Some (rest, cap)).

(** [re.findall]: the first match at the leftmost position, then the scan
    resumes where it ended.  Each item is the group when there is one. *)
Fixpoint findall_go (fuel : nat) (r : rx) (s : pystr) : list pystr :=
  match fuel with
  | O => []
  | S f =>
      let next := match s with [] => [] | _ :: s' => findall_go f r s' end in
      match match_at r s with
      | Some (rest, cap) =>
          let item := match cap with
                      | Some g => g
                      | None => firstn (length s - length rest) s
                      end in
          item :: (if (length rest <? length s)%nat then findall_go f r rest else next)
      | None => next
      end
  end.

Definition findall (r : rx) (s : pystr) : list pystr :=
  findall_go (S (length s)) r s.

Definition lit (s : pystr) : rx := fold_right (fun c r => RSeq (RChr c) r) REps s.

Definition rcat (rs : list rx) : rx := fold_right RSeq REps rs.

(** [.] does not match a newline. *)
Definition dot (c : Z) : bool := negb (c =? LF).

(** ** The extractors *)

Definition SSDP_GROUP : pystr * Z := (u "239.255.255.250", 1900).
Definition URN_AVTransport : pystr := u "urn:schemas-upnp-org:service:AVTransport:1".

(** [re.findall('http://.*:(\d+).*', location)] *)
Definition port_re : rx :=
  rcat [lit (u "http://"); RStar dot; RChr 58;
        RGrp (RSeq (RCls digit) (RStar digit)); RStar dot].

Definition _get_port (location : pystr) : Z :=
  match findall port_re location with
  | p :: _ => py_int p
  | [] => 80
  end.

(** The pattern of [_get_control_url], [re.escape(URN_AVTransport)]
    matching the URN literally. *)
Definition control_url_re : rx :=
  rcat [lit (u "<serviceType>"); lit URN_AVTransport; lit (u "</serviceType>");
        RStar dot; lit (u "<controlURL>"); RGrp (RStar dot); lit (u "</controlURL>")].

Definition _get_control_url (raw : pystr) : pystr :=
  match findall control_url_re (py_replace [LF] [] raw) with
  | url :: _ => url
  | [] => []
  end.

Definition location_prefix : pystr := u "LOCATION:".
Definition location_header : pystr := u "LOCATION: ".

(** The [for] loop of [_get_location_url] returns at the first line that
    starts with [LOCATION:]. *)
Fixpoint location_scan (ds : list pystr) : pystr :=
  match ds with
  | [] => []
  | d :: ds' =>
      if prefixb location_prefix d then py_replace location_header [] d
      else location_scan ds'
  end.

Definition _get_location_url (raw : pystr) : pystr :=
  location_scan (py_split CRLF raw).

Definition friendly_name_re : rx :=
  rcat [lit (u "<friendlyName>"); RGrp (RStar dot); lit (u "</friendlyName>")].

Definition _get_friendly_name (raw : pystr) : pystr :=
  match findall friendly_name_re raw with
  | name :: _ => name
  | [] => u "Unknown"
  end.

Definition py_join (sep : pystr) (xs : list pystr) : pystr :=
  match xs with
  | [] => []
  | x :: xs' => x ++ flat_map (fun y => sep ++ y) xs'
  end.

Definition spaces (n : nat) : pystr := repeat 32 n.

(** ** Effects: exceptions, the socket log and the network *)

Inductive exc :=
| TypeError          (* [name in None] *)
| UnicodeDecodeError (* [raw.decode()] of a datagram *)
| ResponseFailed     (* [Exception('Getting response failed')] *)
| ConnectionError    (* [sock.connect] refused *)
| UnicodeEncodeError. (* [payload.encode()] of a lone surrogate *)

Inductive outcome (A : Type) :=
| Ok (a : A)
| Raise (e : exc).
Arguments Ok {A} a.
Arguments Raise {A} e.

Inductive act :=
| UdpOpen
| UdpSendTo (to : pystr * Z) (data : list Z)
| UdpClose
| TcpConnect (to : pystr * option Z)
| TcpSendAll (data : list Z)
| TcpClose.

(** The log of socket actions and the outcomes of the next [connect]
    calls (a call with no listed outcome succeeds). *)
Record st := mkSt { st_log : list act; st_net : list bool }.

Definition M (A : Type) := st -> outcome A * st.

Definition ret {A} (a : A) : M A := fun s => (Ok a, s).
Definition raise {A} (e : exc) : M A := fun s => (Raise e, s).
Definition bind {A B} (m : M A) (k : A -> M B) : M B :=
  fun s => match m s with
           | (Ok a, s') => k a s'
           | (Raise e, s') => (Raise e, s')
           end.
Definition lift {A} (o : outcome A) : M A := fun s => (o, s).

Notation "x <- m ;; k" := (bind m (fun x => k))
  (at level 61, m at next level, right associativity).
Notation "m ;; k" := (bind m (fun _ => k))
  (at level 61, right associativity).

Definition emit (a : act) : M unit :=
  fun s => (Ok tt, mkSt (st_log s ++ [a]) (st_net s)).

Definition connect_result : M bool :=
  fun s => match st_net s with
           | b :: bs => (Ok b, mkSt (st_log s) bs)
           | [] => (Ok true, s)
           end.

(** [@contextmanager] over a generator whose [yield] is not inside a
    [try]: the code after the [yield] runs when the [with] body returns;
    an exception of the body is thrown in at the [yield] and leaves the
    generator at once. *)
Definition with_gen {A} (before after : M unit) (body : M A) : M A :=
  before ;;
  fun s => match body s with
           | (Ok a, s') => (after ;; ret a) s'
           | (Raise e, s') => (Raise e, s')
           end.

(** [_send_udp(to, payload)]: the code before and after its [yield]. *)
Definition _send_udp_enter (to : pystr * Z) (payload : pystr) : M unit :=
  emit UdpOpen ;;
  match py_encode payload with
  | Some b => emit (UdpSendTo to b)
  | None => raise UnicodeEncodeError
  end.
Definition _send_udp_exit : M unit := emit UdpClose.

(** [_send_tcp(to, payload)]: [try: connect; sendall(payload.encode())
    finally: close]. *)
Definition _send_tcp (to : pystr * option Z) (payload : pystr) : M unit :=
  emit (TcpConnect to) ;;
  ok <- connect_result ;;
  if ok then
    match py_encode payload with
    | Some b => emit (TcpSendAll b) ;; emit TcpClose
    | None => emit TcpClose ;; raise UnicodeEncodeError
    end
  else emit TcpClose ;; raise ConnectionError.

(** ** The device *)

Record DlnapDevice := mkDevice {
  ip : pystr;
  port : option Z;
  control_url : option pystr;
  name : option pystr;
  has_av_transport : bool;
  location : pystr
}.

Fixpoint str_eqb (a b : pystr) : bool :=
  match a, b with
  | [], [] => true
  | x :: a', y :: b' => (x =? y) && str_eqb a' b'
  | _, _ => false
  end.

Definition opt_eqb (a b : option pystr) : bool :=
  match a, b with
  | Some x, Some y => str_eqb x y
  | None, None => true
  | _, _ => false
  end.

(** [__eq__] *)
Definition dev_eq (self d : DlnapDevice) : bool :=
  opt_eqb (name self) (name d) && str_eqb (ip self) (ip d).

(** [d in devices] *)
Definition py_in (d : DlnapDevice) (devices : list DlnapDevice) : bool :=
  existsb (fun x => dev_eq x d) devices.

(** [str.format] of the fields that may still be [None]. *)
Definition fmt_str (o : option pystr) : pystr :=
  match o with Some s => s | None => u "None" end.
Definition fmt_int (o : option Z) : pystr :=
  match o with Some p => py_str_nat (Z.to_nat p) | None => u "None" end.

Definition av_service_tag : pystr :=
  u "<serviceType>" ++ URN_AVTransport ++ u "</serviceType>".

Section Construction.

(** [bytes.decode()] of a datagram, [None] when it raises. *)
Variable decode : list Z -> option pystr.
(** [urlopen(location).read().decode()], [None] when any step raises.
    The HTTP connection [urlopen] opens is its own: the socket log of
    the monad below records only the sockets of [_send_udp] and
    [_send_tcp]. *)
Variable fetch : pystr -> option pystr.

(** [DlnapDevice.__init__(raw, ip)].  The [except] branch only prints,
    so it leaves the fields set before the failure. *)
Definition new_device (raw : list Z) (ip0 : pystr) : outcome DlnapDevice :=
  match decode raw with
  | None => Raise UnicodeDecodeError
  | Some txt =>
      let loc := _get_location_url txt in
      let p := _get_port loc in
      match fetch loc with
      | None => Ok (mkDevice ip0 (Some p) None None false loc)
      | Some desc_xml =>
          Ok (mkDevice ip0 (Some p) (Some (_get_control_url desc_xml))
                (Some (_get_friendly_name desc_xml))
                (py_contains av_service_tag desc_xml) loc)
      end
  end.

(** What [select] reported on one pass of the [while] loop before the
    deadline; the loop ends ([break]) when the list is exhausted. *)
Inductive event :=
| Readable (data : list Z) (addr : pystr)
| Errored
| Idle.

(** [not name or name is None or name in d.name] *)
Definition name_ok (flt : option pystr) (d : DlnapDevice) : outcome bool :=
  match flt with
  | None | Some [] => Ok true
  | Some f =>
      match name d with
      | None => Raise TypeError
      | Some n => Ok (py_contains f n)
      end
  end.

Fixpoint discover_loop (flt : option pystr) (evs : list event)
    (devices : list DlnapDevice) : outcome (list DlnapDevice) :=
  match evs with
  | [] => Ok devices
  | Readable data addr :: evs' =>
      match new_device data addr with
      | Raise e => Raise e
      | Ok d =>
          if py_in d devices then discover_loop flt evs' devices
          else match name_ok flt d with
               | Raise e => Raise e
               | Ok true => discover_loop flt evs' (devices ++ [d])
               | Ok false => discover_loop flt evs' devices
               end
      end
  | Errored :: _ => Raise ResponseFailed
  | Idle :: evs' => discover_loop flt evs' devices
  end.

Definition search_payload (st_field : pystr) (mx : nat) : pystr :=
  py_join CRLF
    [u "M-SEARCH * HTTP/1.1";
     u "HOST: " ++ fst SSDP_GROUP ++ u ":" ++ py_str_nat (Z.to_nat (snd SSDP_GROUP));
     u "Accept: */*";
     u "MAN: `ssdp:discover`";
     u "ST: " ++ st_field;
     u "MX: " ++ py_str_nat mx;
     [];
     []].

(** [discover(name, timeout, st, mx)] *)
Definition discover (flt : option pystr) (evs : list event)
    (st_field : pystr) (mx : nat) : M (list DlnapDevice) :=
  with_gen (_send_udp_enter SSDP_GROUP (search_payload st_field mx))
           _send_udp_exit
           (lift (discover_loop flt evs [])).

End Construction.

(** ** The SOAP commands *)

Definition soap_head : list pystr :=
  [u "<?xml version=`1.0` encoding=`utf-8`?>";
   spaces 9 ++ u "<s:Envelope xmlns:s=`http://schemas.xmlsoap.org/soap/envelope/` s:encodingStyle=`http://schemas.xmlsoap.org/soap/encoding/`>";
   spaces 12 ++ u "<s:Body>"].

Definition soap_tail : list pystr :=
  [spaces 12 ++ u "</s:Body>";
   spaces 9 ++ u "</s:Envelope>"].

(** The [payload] of [_set_av(url, instance_id)]. *)
Definition set_av_payload (url : pystr) (instance_id : nat) : pystr :=
  py_join [LF]
    (soap_head ++
     [spaces 15 ++ u "<u:SetAVTransportURI xmlns:u=`" ++ URN_AVTransport ++ u "`>";
      spaces 18 ++ u "<InstanceID>" ++ py_str_nat instance_id ++ u "</InstanceID>";
      spaces 18 ++ u "<CurrentURI>" ++ url ++ u "</CurrentURI>";
      spaces 18 ++ u "<CurrentURIMetaData />";
      spaces 15 ++ u "</u:SetAVTransportURI>"] ++
     soap_tail).

(** The [payload] of [_play(instance_id)]. *)
Definition play_payload (instance_id : nat) : pystr :=
  py_join [LF]
    (soap_head ++
     [spaces 15 ++ u "<u:Play xmlns:u=`" ++ URN_AVTransport ++ u "`>";
      spaces 18 ++ u "<InstanceID>" ++ py_str_nat instance_id ++ u "</InstanceID>";
      spaces 18 ++ u "<Speed>1</Speed>";
      spaces 15 ++ u "</u:Play>"] ++
     soap_tail).

(** The list joined with CRLF into the request; [len(payload)] counts
    the code points of the payload. *)
Definition request_lines (self : DlnapDevice) (action payload : pystr) : list pystr :=
  [u "POST " ++ fmt_str (control_url self) ++ u " HTTP/1.1";
   u "User-Agent: dlnap/0.1";
   u "Accept: */*";
   u "Content-Type: text/xml; charset=`utf-8`";
   u "HOST: " ++ ip self ++ u ":" ++ fmt_int (port self);
   u "Content-Length: " ++ py_str_nat (length payload);
   u "SOAPACTION: `" ++ URN_AVTransport ++ u "#" ++ action ++ u "`";
   u "Connection: close";
   [];
   payload].

Definition set_av_request (self : DlnapDevice) (url : pystr) (instance_id : nat) : pystr :=
  py_join CRLF (request_lines self (u "SetAVTransportURI") (set_av_payload url instance_id)).

Definition play_request (self : DlnapDevice) (instance_id : nat) : pystr :=
  py_join CRLF (request_lines self (u "Play") (play_payload instance_id)).

Definition _set_av (self : DlnapDevice) (url : pystr) (instance_id : nat) : M unit :=
  _send_tcp (ip self, port self) (set_av_request self url instance_id).

Definition _play (self : DlnapDevice) (instance_id : nat) : M unit :=
  _send_tcp (ip self, port self) (play_request self instance_id).

(** [DlnapDevice.play(url)] *)
Definition play (self : DlnapDevice) (url : pystr) : M unit :=
  _set_av self url 0 ;; _play self 0.

(** How many devices of a list are [==] to [d]. *)
Definition count_eq (l : list DlnapDevice) (d : DlnapDevice) : nat :=
  length (filter (fun x => dev_eq x d) l).

(** The datagrams of these events are read before the response of
    interest: no socket error, and each one decodes. *)
Definition reaches (decode : list Z -> option pystr) (e : event) : bool :=
  match e with
  | Errored => false
  | Readable data _ => match decode data with Some _ => true | None => false end
  | Idle => true
  end.

(** ** The command line ([if __name__ == '__main__']) *)

(** [timeout] starts as the float [0.5]; [-t] stores its argument
    unconverted, a [str]. *)
Inductive timeout_val :=
| TFloat
| TStr (s : pystr).

Record cli_opts := mkCli {
  cli_device : pystr;
  cli_url : pystr;
  cli_timeout : timeout_val;
  cli_action : pystr
}.

Definition cli_default : cli_opts := mkCli [] [] TFloat [].

(** [x in (a, b, ...)] *)
Definition in_tuple (x : pystr) (xs : list pystr) : bool := existsb (str_eqb x) xs.

Inductive opts_result :=
| OptsExit (code : Z)
| OptsDone (c : cli_opts).

(** The [for opt, arg in opts] loop.  [('--list')] and the like are
    strings, not tuples, so [opt in ('--list')] is a substring test. *)
Fixpoint process_opts (opts : list (pystr * pystr)) (c : cli_opts) : opts_result :=
  match opts with
  | [] => OptsDone c
  | (opt, arg) :: rest =>
      if in_tuple opt [u "-h"; u "--help"] then OptsExit 0
      else if in_tuple opt [u "-v"; u "--version"] then OptsExit 0
      else
        let c1 :=
          if in_tuple opt [u "-d"; u "--device"] then
            mkCli arg (cli_url c) (cli_timeout c) (cli_action c)
          else if in_tuple opt [u "-t"; u "--timeout"] then
            mkCli (cli_device c) (cli_url c) (TStr arg) (cli_action c)
          else c in
        let c2 :=
          if py_contains opt (u "--list") then
            mkCli (cli_device c1) (cli_url c1) (cli_timeout c1) (u "list")
          else if py_contains opt (u "--play") then
            mkCli (cli_device c1) arg (cli_timeout c1) (u "play")
          else if py_contains opt (u "--pause") then
            mkCli (cli_device c1) (cli_url c1) (cli_timeout c1) (u "pause")
          else if py_contains opt (u "--stop") then
            mkCli (cli_device c1) (cli_url c1) (cli_timeout c1) (u "stop")
          else c1 in
        process_opts rest c2
  end.

(** The option names [getopt] can return for ["hvd:t:"] and the long
    options of the call. *)
Definition getopt_names : list pystr :=
  [u "-h"; u "-v"; u "-d"; u "-t"; u "--help"; u "--version"; u "--play";
   u "--pause"; u "--stop"; u "--list"; u "--device"; u "--timeout"].

Definition exits_early (opt : pystr) : bool :=
  in_tuple opt [u "-h"; u "--help"; u "-v"; u "--version"].

(** [discover(name=device, timeout=timeout)] as the command line calls
    it.  With the float default the deadline is the end of [evs]; with a
    [str] timeout the first statement of the [with] body,
    [time.time() - start > timeout], compares a float with a [str] and
    raises [TypeError] (Python 3). *)
Definition discover_cli (decode : list Z -> option pystr) (fetch : pystr -> option pystr)
    (device : pystr) (t : timeout_val) (evs : list event) : M (list DlnapDevice) :=
  match t with
  | TFloat => discover decode fetch (Some device) evs (u "ssdp:all") 3
  | TStr _ =>
      with_gen (_send_udp_enter SSDP_GROUP (search_payload (u "ssdp:all") 3))
               _send_udp_exit (raise TypeError)
  end.

(** How the script ends: [sys.exit(code)], falling off the end, or the
    [AttributeError] of [d.pause()] / [d.stop()], which [DlnapDevice]
    does not define. *)
Inductive main_end :=
| MainExit (code : Z)
| MainReturn
| MainAttributeError.

(** The script after [getopt] ([None] for [GetoptError]). *)
Definition main (decode : list Z -> option pystr) (fetch : pystr -> option pystr)
    (parsed : option (list (pystr * pystr))) (evs : list event) : M main_end :=
  match parsed with
  | None => ret (MainExit 1)
  | Some opts =>
      match process_opts opts cli_default with
      | OptsExit code => ret (MainExit code)
      | OptsDone c =>
          allDevices <- discover_cli decode fetch (cli_device c) (cli_timeout c) evs ;;
          match allDevices with
          | [] => ret (MainExit 1)
          | d :: _ =>
              if in_tuple (cli_action c) [[]; u "list"] then ret (MainExit 0)
              else if str_eqb (cli_action c) (u "play") then
                play d (cli_url c) ;; ret MainReturn
              else if str_eqb (cli_action c) (u "pause") then ret MainAttributeError
              else if str_eqb (cli_action c) (u "stop") then ret MainAttributeError
              else ret MainReturn
          end
      end
  end.

(** Every code point below 128. *)
Definition is_ascii (s : pystr) : bool := forallb (fun c => (0 <=? c) && (c <? 128)) s.

(** ** Concrete inputs *)

Definition ascii_decode (b : list Z) : option pystr := Some b.
Definition fetch_fails (loc : pystr) : option pystr := None.

Definition resp_txt : pystr :=
  u "HTTP/1.1 200 OK" ++ CRLF ++
  u "LOCATION: http://192.168.1.20:49152/description.xml" ++ CRLF ++ CRLF.

Definition renderer_desc : pystr :=
  u "<root><device><friendlyName>Living Room TV</friendlyName><serviceList>" ++ [LF] ++
  u "<service><serviceType>urn:schemas-upnp-org:service:AVTransport:1</serviceType>" ++ [LF] ++
  u "<controlURL>/AVTransport/ctrl</controlURL></service>" ++ [LF] ++
  u "<service><serviceType>urn:schemas-upnp-org:service:RenderingControl:1</serviceType>" ++ [LF] ++
  u "<controlURL>/RenderingControl/ctrl</controlURL></service>" ++ [LF] ++
  u "</serviceList></device></root>".

Definition tv : DlnapDevice :=
  mkDevice (u "192.168.1.20") (Some 49152) (Some (u "/AVTransport/ctrl"))
           (Some (u "Living Room TV")) true (u "http://192.168.1.20:49152/description.xml").

Definition fetch_tv (loc : pystr) : option pystr :=
  Some (u "<friendlyName>Living Room TV</friendlyName>").

Definition tv_plain : DlnapDevice :=
  mkDevice (u "192.168.1.20") (Some 49152) (Some []) (Some (u "Living Room TV"))
           false (u "http://192.168.1.20:49152/description.xml").

(** ** Lemmas on the string primitives *)

Lemma prefixb_app : forall p s, prefixb p (p ++ s) = true.
Proof. induction p; simpl; intros; [reflexivity|]. rewrite Z.eqb_refl. apply IHp. Qed.







(** ** Claims settled by evaluation *)

(** C4 (code bug): on a description whose AVTransport service is followed
    by another service, the greedy [.*] after [</serviceType>] runs to the
    last [<controlURL>], so [_get_control_url] returns the RenderingControl
    control url instead of the one of the AVTransport service. *)
Theorem control_url_takes_last_service :
  _get_control_url renderer_desc = u "/RenderingControl/ctrl".
Proof. vm_compute. reflexivity. Qed.

(** C9 (code bug): on a one-line description with two [<friendlyName>]
    elements, [_get_friendly_name] returns everything from the first
    opening tag to the last closing tag instead of the first element's
    text. *)
Theorem friendly_name_spans_two_elements :
  _get_friendly_name
    (u "<root><device><friendlyName>Media Server</friendlyName><deviceList><device><friendlyName>Renderer</friendlyName></device></deviceList></device></root>")
  = u "Media Server</friendlyName><deviceList><device><friendlyName>Renderer".
Proof. vm_compute. reflexivity. Qed.

(** C8 (code bug): for the url [é] the SetAVTransportURI request declares
    [Content-Length: 497], the number of code points of the payload,
    while the payload that [_send_tcp] encodes and sends is 498 bytes. *)
Theorem set_av_content_length_counts_code_points : forall self : DlnapDevice,
  nth 5 (request_lines self (u "SetAVTransportURI") (set_av_payload [233] 0)) []
    = u "Content-Length: 497" /\
  length (encode (set_av_payload [233] 0)) = 498%nat.
Proof. intros self. split; vm_compute; reflexivity. Qed.

(** C2 (code bug): when the socket errors during the wait, [discover]
    raises [Getting response failed] and the log holds the opened
    discovery socket with no [close]: the generator of [_send_udp] has no
    [try]/[finally] around its [yield]. *)
Theorem discover_error_leaves_socket_open :
  discover ascii_decode fetch_fails None [Errored] (u "ssdp:all") 3 (mkSt [] [])
    = (Raise ResponseFailed,
       mkSt [UdpOpen; UdpSendTo SSDP_GROUP (encode (search_payload (u "ssdp:all") 3))] [])
  /\ ~ In UdpClose [UdpOpen; UdpSendTo SSDP_GROUP (encode (search_payload (u "ssdp:all") 3))].
Proof.
  split.
  - vm_compute. reflexivity.
  - simpl. intros [H|[H|H]]; [discriminate|discriminate|exact H].
Qed.

(** C5 (code bug): with the filter [TV] and one response whose
    description fetch fails, [discover] raises [TypeError] instead of
    returning the empty list. *)
Theorem discover_filter_raises_on_unnamed :
  fst (discover ascii_decode fetch_fails (Some (u "TV"))
         [Idle; Readable resp_txt (u "192.168.1.20")] (u "ssdp:all") 3 (mkSt [] []))
  = Raise TypeError.
Proof. vm_compute. reflexivity. Qed.

(** C7 (counterexample): a line [LOCATION:url] without the space is
    selected by [startswith('LOCATION:')] and returned whole, where the
    claim asks for the empty string. *)
Theorem location_without_space_counterexample :
  _get_location_url (u "HTTP/1.1 200 OK" ++ CRLF ++ u "LOCATION:http://10.0.0.5/d.xml" ++ CRLF)
    = u "LOCATION:http://10.0.0.5/d.xml" /\
  _get_location_url (u "HTTP/1.1 200 OK" ++ CRLF ++ u "LOCATION:http://10.0.0.5/d.xml" ++ CRLF)
    <> [].
Proof. split; vm_compute; [reflexivity | discriminate]. Qed.

(** C1 (counterexample): when the description fetch fails the device is
    built with [control_url = None], not the empty string. *)
Theorem fetch_failure_control_url_none :
  new_device ascii_decode fetch_fails resp_txt (u "192.168.1.20")
    = Ok (mkDevice (u "192.168.1.20") (Some 49152) None None false
                   (u "http://192.168.1.20:49152/description.xml")) /\
  (None : option pystr) <> Some (u "").
Proof. split; [vm_compute; reflexivity | discriminate]. Qed.

(** C3 (counterexample): two responses with the same name and ip whose
    name does not contain the filter yield no device at all. *)
Theorem duplicate_filtered_out_counterexample :
  fst (discover ascii_decode (fun _ => Some (u "<friendlyName>Kitchen Speaker</friendlyName>"))
         (Some (u "TV"))
         [Readable resp_txt (u "192.168.1.20"); Readable resp_txt (u "192.168.1.20")]
         (u "ssdp:all") 3 (mkSt [] []))
  = Ok [].
Proof. vm_compute. reflexivity. Qed.


(** ** C6: the two sends of [play] *)



(** ** Equality of devices *)

Lemma str_eqb_eq : forall a b, str_eqb a b = true <-> a = b.
Proof.
  induction a as [|x a IH]; intros [|y b]; simpl; split; intros H;
    try discriminate; try reflexivity.
  - apply andb_prop in H as [H1 H2]. apply Z.eqb_eq in H1. apply IH in H2. subst. reflexivity.
  - injection H as -> ->. rewrite Z.eqb_refl. apply (proj2 (IH b)). reflexivity.
Qed.

Lemma opt_eqb_eq : forall a b, opt_eqb a b = true <-> a = b.
Proof.
  intros [a|] [b|]; simpl; split; intros H; try discriminate; try reflexivity.
  - apply str_eqb_eq in H. subst. reflexivity.
  - injection H as ->. apply str_eqb_eq. reflexivity.
Qed.

Lemma dev_eq_iff : forall d1 d2,
  dev_eq d1 d2 = true <-> name d1 = name d2 /\ ip d1 = ip d2.
Proof.
  intros d1 d2. unfold dev_eq. rewrite andb_true_iff, opt_eqb_eq, str_eqb_eq.
  reflexivity.
Qed.

Lemma dev_eq_refl : forall d, dev_eq d d = true.
Proof. intros d. apply dev_eq_iff. split; reflexivity. Qed.

Lemma dev_eq_trans_sym : forall x y z,
  dev_eq x y = true -> dev_eq z y = true -> dev_eq x z = true.
Proof.
  intros x y z H1 H2. apply dev_eq_iff in H1 as [H1 H1'].
  apply dev_eq_iff in H2 as [H2 H2']. apply dev_eq_iff. split; congruence.
Qed.

Lemma py_in_spec : forall d devs,
  py_in d devs = true <-> exists y, In y devs /\ dev_eq y d = true.
Proof. intros d devs. unfold py_in. apply existsb_exists. Qed.

Lemma count_eq_app1 : forall l d x,
  count_eq (l ++ [d]) x = (count_eq l x + if dev_eq d x then 1 else 0)%nat.
Proof.
  intros l d x. unfold count_eq. rewrite filter_app, length_app. simpl.
  destruct (dev_eq d x); reflexivity.
Qed.

Lemma count_eq_pos : forall l x,
  (1 <= count_eq l x)%nat -> exists y, In y l /\ dev_eq y x = true.
Proof.
  intros l x H. unfold count_eq in H.
  destruct (filter (fun y => dev_eq y x) l) as [|y ys] eqn:E; simpl in H; [lia|].
  exists y. apply (filter_In (fun y => dev_eq y x)). rewrite E. left. reflexivity.
Qed.

Lemma count_eq_in : forall l x y,
  In y l -> dev_eq y x = true -> (1 <= count_eq l x)%nat.
Proof.
  intros l x y Hin Heq. unfold count_eq.
  assert (Hf : In y (filter (fun y => dev_eq y x) l)) by (apply filter_In; auto).
  destruct (filter (fun y => dev_eq y x) l); [destruct Hf | simpl; lia].
Qed.

(** ** The discovery loop *)

Section Loop.

Context (decode : list Z -> option pystr) (fetch : pystr -> option pystr).

Lemma discover_fst : forall flt evs stf mx s,
  py_encode (search_payload stf mx) <> None ->
  fst (discover decode fetch flt evs stf mx s) = discover_loop decode fetch flt evs [].
Proof.
  intros flt evs stf mx s He.
  unfold discover, with_gen, _send_udp_enter, _send_udp_exit, bind, emit, lift, ret.
  destruct (py_encode (search_payload stf mx)); [|congruence].
  destruct (discover_loop decode fetch flt evs []); reflexivity.
Qed.

Lemma discover_ok : forall flt evs stf mx s l s',
  discover decode fetch flt evs stf mx s = (Ok l, s') -> discover_loop decode fetch flt evs [] = Ok l.
Proof.
  intros flt evs stf mx s l s' H.
  unfold discover, with_gen, _send_udp_enter, _send_udp_exit, bind, emit, lift, ret, raise in H.
  destruct (py_encode (search_payload stf mx)); [|discriminate].
  destruct (discover_loop decode fetch flt evs []); congruence.
Qed.

Lemma new_device_ok : forall raw a txt,
  decode raw = Some txt -> exists d, new_device decode fetch raw a = Ok d.
Proof.
  intros raw a txt H. unfold new_device. rewrite H.
  destruct (fetch _); eexists; reflexivity.
Qed.

Lemma loop_incl : forall flt evs devs l,
  discover_loop decode fetch flt evs devs = Ok l -> incl devs l.
Proof.
  intros flt evs. induction evs as [|e evs IH]; intros devs l H; simpl in H.
  - injection H as <-. apply incl_refl.
  - destruct e as [data a| |].
    + destruct (new_device decode fetch data a) as [d|]; [|discriminate].
      destruct (py_in d devs); [eauto|].
      destruct (name_ok flt d) as [[|]|]; try discriminate; [|eauto].
      intros x Hx. apply (IH _ _ H). apply in_or_app. left. exact Hx.
    + discriminate.
    + eauto.
Qed.

(** Every processed response that passes the filter has an equal device
    in the result. *)
Lemma loop_covers : forall flt evs1 data a evs2 devs l d,
  discover_loop decode fetch flt (evs1 ++ Readable data a :: evs2) devs = Ok l ->
  new_device decode fetch data a = Ok d ->
  name_ok flt d = Ok true ->
  exists y, In y l /\ dev_eq y d = true.
Proof.
  intros flt evs1 data a evs2.
  induction evs1 as [|e evs1 IH]; intros devs l d H Hd Hn; simpl in H.
  - rewrite Hd in H. destruct (py_in d devs) eqn:E.
    + apply py_in_spec in E as (y & Hy & Heq).
      exists y. split; [apply (loop_incl _ _ _ _ H); exact Hy | exact Heq].
    + rewrite Hn in H. exists d. split; [|apply dev_eq_refl].
      apply (loop_incl _ _ _ _ H). apply in_or_app. right. left. reflexivity.
  - destruct e as [data' a'| |].
    + destruct (new_device decode fetch data' a') as [d'|]; [|discriminate].
      destruct (py_in d' devs); [eauto|].
      destruct (name_ok flt d') as [[|]|]; try discriminate; eauto.
    + discriminate.
    + eauto.
Qed.

(** The result never holds two equal devices. *)
Lemma loop_unique : forall flt evs devs l,
  (forall x, (count_eq devs x <= 1)%nat) ->
  discover_loop decode fetch flt evs devs = Ok l ->
  forall x, (count_eq l x <= 1)%nat.
Proof.
  intros flt evs. induction evs as [|e evs IH]; intros devs l Hu H; simpl in H.
  - injection H as <-. exact Hu.
  - destruct e as [data a| |].
    + destruct (new_device decode fetch data a) as [d|]; [|discriminate].
      destruct (py_in d devs) eqn:Ein; [eauto|].
      destruct (name_ok flt d) as [[|]|]; try discriminate; [|eauto].
      refine (IH _ _ _ H). intros x. rewrite count_eq_app1.
      destruct (dev_eq d x) eqn:Edx; [|specialize (Hu x); lia].
      destruct (count_eq devs x) eqn:Ec; [lia|].
      destruct (count_eq_pos devs x) as (y & Hy & Hyx); [lia|].
      assert (Hyd : dev_eq y d = true) by (eapply dev_eq_trans_sym; eauto).
      assert (Hin : py_in d devs = true) by (apply py_in_spec; eauto).
      congruence.
    + discriminate.
    + eauto.
Qed.

(** With a non-empty filter, once a response whose description fetch
    failed is read, the loop raises [TypeError]. *)
Lemma loop_unnamed_raises : forall f evs1 raw ip0 txt evs2 devs,
  f <> [] ->
  Forall (fun e => reaches decode e = true) evs1 ->
  Forall (fun x => name x <> None) devs ->
  decode raw = Some txt ->
  fetch (_get_location_url txt) = None ->
  discover_loop decode fetch (Some f) (evs1 ++ Readable raw ip0 :: evs2) devs = Raise TypeError.
Proof.
  intros f evs1 raw ip0 txt evs2 devs Hf Hr.
  revert devs. induction Hr as [|e evs1 He Hr IH]; intros devs Hdevs Hdec Hfetch; simpl.
  - unfold new_device at 1. rewrite Hdec, Hfetch.
    destruct (py_in _ devs) eqn:Ein.
    + apply py_in_spec in Ein as (y & Hy & Heq). apply dev_eq_iff in Heq as [Hn _].
      simpl in Hn. rewrite Forall_forall in Hdevs. exfalso. exact (Hdevs y Hy Hn).
    + destruct f; [congruence | reflexivity].
  - destruct e as [data a| |]; simpl in He; [|discriminate|auto].
    destruct (decode data) as [t|] eqn:Et; [|discriminate].
    destruct (new_device_ok data a t Et) as [d Hd]. rewrite Hd.
    destruct (py_in d devs); [auto|].
    destruct f as [|c f']; [congruence|]. simpl.
    destruct (name d) as [n|] eqn:En; [|reflexivity].
    destruct (py_contains (c :: f') n); [|auto].
    apply IH; auto. apply Forall_app. split; [exact Hdevs|].
    constructor; [congruence | constructor].
Qed.

End Loop.

Section Loop2.

Context (decode : list Z -> option pystr) (fetch : pystr -> option pystr).

Lemma loop_origin : forall flt evs devs l d,
  discover_loop decode fetch flt evs devs = Ok l -> In d l ->
  In d devs \/
  (name_ok flt d = Ok true /\
   exists data a, In (Readable data a) evs /\ new_device decode fetch data a = Ok d).
Proof.
  intros flt evs. induction evs as [|e evs IH]; intros devs l d H Hin; simpl in H.
  - injection H as <-. left. exact Hin.
  - destruct e as [data a| |].
    + destruct (new_device decode fetch data a) as [d0|] eqn:Hd0; [|discriminate].
      assert (Lift : forall ds, discover_loop decode fetch flt evs ds = Ok l ->
                (forall x, In x ds -> In x devs \/ x = d0 /\ name_ok flt d0 = Ok true) ->
                In d devs \/ (name_ok flt d = Ok true /\
                  exists data' a', In (Readable data' a') (Readable data a :: evs) /\
                                   new_device decode fetch data' a' = Ok d)).
      { intros ds Hl Hds.
        destruct (IH ds l d Hl Hin) as [Hx|(Hn & data' & a' & Hi & Hd)].
        - destruct (Hds d Hx) as [Hy|[-> Hn]]; [left; exact Hy|].
          right. split; [exact Hn|]. exists data, a. split; [left; reflexivity | exact Hd0].
        - right. split; [exact Hn|]. exists data', a'. split; [right; exact Hi | exact Hd]. }
      assert (Keep : forall x, In x devs -> In x devs \/ x = d0 /\ name_ok flt d0 = Ok true)
        by (intros x Hx; left; exact Hx).
      destruct (py_in d0 devs).
      * destruct (Lift devs H Keep) as [?|(Hn & x & y & Hi & Hd)]; [left; assumption|].
        right. split; [exact Hn|]. exists x, y. split; [|exact Hd].
        destruct Hi as [Hi|Hi]; [left; exact Hi | right; exact Hi].
      * destruct (name_ok flt d0) as [[|]|] eqn:En; try discriminate.
        -- refine (_ (Lift (devs ++ [d0]) H _)).
           ++ intros [?|(Hn & x & y & Hi & Hd)]; [left; assumption|].
              right. split; [exact Hn|]. exists x, y. split; [|exact Hd].
              destruct Hi as [Hi|Hi]; [left; exact Hi | right; exact Hi].
           ++ intros x Hx. apply in_app_or in Hx as [Hx|[<-|[]]]; [left; exact Hx|].
              right. split; reflexivity.
        -- destruct (Lift devs H Keep) as [?|(Hn & x & y & Hi & Hd)]; [left; assumption|].
           right. split; [exact Hn|]. exists x, y. split; [|exact Hd].
           destruct Hi as [Hi|Hi]; [left; exact Hi | right; exact Hi].
    + discriminate.
    + destruct (IH devs l d H Hin) as [?|(Hn & x & y & Hi & Hd)]; [left; assumption|].
      right. split; [exact Hn|]. exists x, y. split; [right; exact Hi | exact Hd].
Qed.

Lemma loop_reaches : forall flt evs devs l,
  discover_loop decode fetch flt evs devs = Ok l ->
  Forall (fun e => reaches decode e = true) evs.
Proof.
  intros flt evs. induction evs as [|e evs IH]; intros devs l H; simpl in H.
  - constructor.
  - destruct e as [data a| |].
    + destruct (decode data) as [txt|] eqn:Ed;
        [|unfold new_device at 1 in H; rewrite Ed in H; discriminate].
      destruct (new_device_ok decode fetch data a txt Ed) as [d Hd]. rewrite Hd in H.
      constructor; [simpl; rewrite Ed; reflexivity|].
      destruct (py_in d devs); [eauto|].
      destruct (name_ok flt d) as [[|]|]; try discriminate; eauto.
    + discriminate.
    + constructor; [reflexivity | eauto].
Qed.

(** [name_ok] looks only at the name. *)
Lemma name_ok_name : forall flt x y, name x = name y -> name_ok flt x = name_ok flt y.
Proof. intros flt x y H. unfold name_ok. rewrite H. reflexivity. Qed.

End Loop2.

(** ** Discovery claims *)

(** C1 (amended): when the description fetch of a response fails,
    constructing the device does not raise: it has [has_av_transport =
    false], [control_url] and [name] left [None], and the port of the
    location.  With an empty or absent filter, whenever [discover]
    returns a list, that list holds a device with the same ip and an
    unset name, which [==] the new one. *)
Theorem fetch_failure_device_kept : forall decode fetch raw ip0 txt,
  decode raw = Some txt ->
  fetch (_get_location_url txt) = None ->
  new_device decode fetch raw ip0
    = Ok (mkDevice ip0 (Some (_get_port (_get_location_url txt))) None None false
                   (_get_location_url txt)) /\
  (forall flt evs1 evs2 stf mx s l s',
     flt = None \/ flt = Some [] ->
     discover decode fetch flt (evs1 ++ Readable raw ip0 :: evs2) stf mx s = (Ok l, s') ->
     exists y, In y l /\ ip y = ip0 /\ name y = None).
Proof.
  intros decode fetch raw ip0 txt Hdec Hfetch.
  assert (Hd : new_device decode fetch raw ip0
    = Ok (mkDevice ip0 (Some (_get_port (_get_location_url txt))) None None false
                   (_get_location_url txt)))
    by (unfold new_device; rewrite Hdec, Hfetch; reflexivity).
  split; [exact Hd|].
  intros flt evs1 evs2 stf mx s l s' Hflt H.
  apply discover_ok in H.
  destruct (loop_covers decode fetch flt evs1 raw ip0 evs2 [] l _ H Hd) as (y & Hy & Heq).
  - destruct Hflt as [->| ->]; reflexivity.
  - apply dev_eq_iff in Heq as [Hn Hi]. exists y. simpl in *. auto.
Qed.

Lemma fetch_failure_device_kept_witness :
  new_device ascii_decode fetch_fails resp_txt (u "192.168.1.20")
    = Ok (mkDevice (u "192.168.1.20")
                   (Some (_get_port (_get_location_url resp_txt))) None None false
                   (_get_location_url resp_txt)) /\
  exists y, In y [mkDevice (u "192.168.1.20") (Some 49152) None None false
                           (u "http://192.168.1.20:49152/description.xml")] /\
            ip y = u "192.168.1.20" /\ name y = None.
Proof.
  destruct (fetch_failure_device_kept ascii_decode fetch_fails resp_txt (u "192.168.1.20")
              resp_txt eq_refl eq_refl) as [H1 H2].
  split; [exact H1|].
  apply (H2 None [Idle] [] (u "ssdp:all") 3%nat (mkSt [] [])
            [mkDevice (u "192.168.1.20") (Some 49152) None None false
                      (u "http://192.168.1.20:49152/description.xml")]
            (mkSt [UdpOpen; UdpSendTo SSDP_GROUP (encode (search_payload (u "ssdp:all") 3%nat));
                   UdpClose] [])).
  - left. reflexivity.
  - vm_compute. reflexivity.
Defined.

(** C3 (amended): two devices are [==] iff their names and ips are equal;
    for two responses of [discover] whose devices have the same name and
    ip, the returned list holds at most one device [==] to them, exactly
    one when their name passes the filter, and none when the filter
    excludes it. *)
Theorem device_identity_dedup :
  (forall d1 d2, dev_eq d1 d2 = true <-> name d1 = name d2 /\ ip d1 = ip d2) /\
  (forall decode fetch flt evs1 evs2 evs3 r1 a1 r2 a2 d1 d2 stf mx s l s',
     discover decode fetch flt (evs1 ++ Readable r1 a1 :: evs2 ++ Readable r2 a2 :: evs3)
              stf mx s = (Ok l, s') ->
     new_device decode fetch r1 a1 = Ok d1 ->
     new_device decode fetch r2 a2 = Ok d2 ->
     name d1 = name d2 -> ip d1 = ip d2 ->
     (count_eq l d1 <= 1)%nat /\ count_eq l d1 = count_eq l d2 /\
     (name_ok flt d1 = Ok true -> count_eq l d1 = 1%nat) /\
     (name_ok flt d1 = Ok false -> count_eq l d1 = 0%nat)).
Proof.
  split; [exact dev_eq_iff|].
  intros decode fetch flt evs1 evs2 evs3 r1 a1 r2 a2 d1 d2 stf mx s l s'
         H Hd1 Hd2 Hn Hi.
  apply discover_ok in H.
  assert (Hu : (count_eq l d1 <= 1)%nat).
  { refine (loop_unique decode fetch _ _ [] l _ H d1). intros x. unfold count_eq. simpl. lia. }
  split; [exact Hu|]. split.
  - unfold count_eq. f_equal. apply filter_ext. intros x.
    unfold dev_eq. rewrite Hn, Hi. reflexivity.
  - split.
    + intros Hok.
      destruct (loop_covers decode fetch flt evs1 r1 a1 _ [] l d1 H Hd1 Hok) as (y & Hy & Heq).
      pose proof (count_eq_in l d1 y Hy Heq). lia.
    + intros Hno. destruct (count_eq l d1) eqn:Ec; [reflexivity|].
      destruct (count_eq_pos l d1) as (y & Hy & Hyx); [lia|].
      destruct (loop_origin decode fetch flt _ [] l y H Hy) as [[]|(Hon & _)].
      apply dev_eq_iff in Hyx as [Hyn _].
      rewrite (name_ok_name flt y d1 Hyn) in Hon. congruence.
Qed.

Lemma device_identity_dedup_witness :
  (count_eq [tv_plain] tv_plain <= 1)%nat /\
  count_eq [tv_plain] tv_plain = count_eq [tv_plain] tv_plain /\
  (name_ok None tv_plain = Ok true -> count_eq [tv_plain] tv_plain = 1%nat) /\
  (name_ok None tv_plain = Ok false -> count_eq [tv_plain] tv_plain = 0%nat).
Proof.
  apply (proj2 device_identity_dedup ascii_decode fetch_tv None [] [Idle] []
           resp_txt (u "192.168.1.20") resp_txt (u "192.168.1.20") tv_plain tv_plain
           (u "ssdp:all") 3%nat (mkSt [] []) [tv_plain]
           (snd (discover ascii_decode fetch_tv None
                   ([] ++ Readable resp_txt (u "192.168.1.20") :: [Idle] ++
                    Readable resp_txt (u "192.168.1.20") :: [])
                   (u "ssdp:all") 3%nat (mkSt [] [])))).
  - vm_compute. reflexivity.
  - vm_compute. reflexivity.
  - vm_compute. reflexivity.
  - reflexivity.
  - reflexivity.
Defined.

(** C10: with a non-empty name filter, once [discover] reads a response
    whose description fetch failed (no socket error and no undecodable
    datagram before it), it raises [TypeError] from [name in d.name]
    instead of returning a list.  Responses are read only once the search
    request has been sent, that is when its text encodes (an [st] holding
    a lone surrogate stops [discover] at [payload.encode()]). *)
Theorem nonempty_filter_fetch_failure_raises :
  forall decode fetch f evs1 raw ip0 txt evs2 stf mx s,
  f <> [] ->
  py_encode (search_payload stf mx) <> None ->
  Forall (fun e => reaches decode e = true) evs1 ->
  decode raw = Some txt ->
  fetch (_get_location_url txt) = None ->
  fst (discover decode fetch (Some f) (evs1 ++ Readable raw ip0 :: evs2) stf mx s)
    = Raise TypeError.
Proof.
  intros decode fetch f evs1 raw ip0 txt evs2 stf mx s Hf He Hr Hdec Hfetch.
  rewrite discover_fst by exact He. eapply loop_unnamed_raises; eauto.
Qed.

Lemma nonempty_filter_fetch_failure_raises_witness :
  fst (discover ascii_decode fetch_fails (Some (u "TV"))
         ([Idle; Readable (u "junk") (u "192.168.1.7")] ++
          Readable resp_txt (u "192.168.1.20") :: [Idle])
         (u "ssdp:all") 3%nat (mkSt [] []))
  = Raise TypeError.
Proof.
  apply (nonempty_filter_fetch_failure_raises ascii_decode fetch_fails (u "TV")
           [Idle; Readable (u "junk") (u "192.168.1.7")] resp_txt (u "192.168.1.20")
           resp_txt [Idle] (u "ssdp:all") 3%nat (mkSt [] [])).
  - discriminate.
  - vm_compute. discriminate.
  - repeat constructor.
  - reflexivity.
  - reflexivity.
Defined.

(** ** The location extractor *)

Lemma replace_go_absent : forall fuel old new s,
  (length s <= fuel)%nat -> py_contains old s = false ->
  replace_go fuel old new s = s.
Proof.
  induction fuel as [|f IH]; intros old new s Hl Hc.
  - destruct s; [reflexivity | simpl in Hl; lia].
  - destruct s as [|c s]; [reflexivity|]. simpl in Hc |- *.
    apply orb_false_iff in Hc as [Hp Hc']. rewrite Hp.
    f_equal. apply IH; [simpl in Hl; lia | exact Hc'].
Qed.

Lemma skipn_length_app : forall (l r : pystr), skipn (length l) (l ++ r) = r.
Proof. induction l; simpl; auto. Qed.

Lemma replace_go_prefix : forall f old new rest,
  old <> [] -> replace_go (S f) old new (old ++ rest) = new ++ replace_go f old new rest.
Proof.
  intros f [|c o] new rest H; [congruence|].
  cbn [replace_go app].
  change (c :: o ++ rest) with ((c :: o) ++ rest).
  rewrite prefixb_app, skipn_length_app. reflexivity.
Qed.

Lemma location_scan_cons : forall d ds,
  location_scan (d :: ds)
  = if prefixb location_prefix d then py_replace location_header [] d
    else location_scan ds.
Proof. reflexivity. Qed.

Lemma location_scan_first : forall pre d post,
  Forall (fun x => prefixb location_prefix x = false) pre ->
  prefixb location_prefix d = true ->
  location_scan (pre ++ d :: post) = py_replace location_header [] d.
Proof.
  intros pre d post Hpre Hd. induction Hpre as [|x pre Hx _ IH]; simpl app.
  - rewrite location_scan_cons, Hd. reflexivity.
  - rewrite location_scan_cons, Hx. exact IH.
Qed.

Lemma location_scan_none : forall ds,
  Forall (fun x => prefixb location_prefix x = false) ds -> location_scan ds = [].
Proof.
  intros ds H. induction H as [|x ds Hx _ IH]; [reflexivity|].
  rewrite location_scan_cons, Hx. exact IH.
Qed.

(** C7 (amended): [_get_location_url] returns [""] when no CRLF-delimited
    line starts with [LOCATION:]; when the first such line is [LOCATION: ]
    followed by a rest in which [LOCATION: ] does not occur, it returns
    that rest. *)
Theorem location_url_first_location_line : forall raw pre rest post,
  (Forall (fun d => prefixb location_prefix d = false) (py_split CRLF raw) ->
   _get_location_url raw = []) /\
  (py_split CRLF raw = pre ++ (location_header ++ rest) :: post ->
   Forall (fun d => prefixb location_prefix d = false) pre ->
   py_contains location_header rest = false ->
   _get_location_url raw = rest).
Proof.
  intros raw pre rest post. unfold _get_location_url. split.
  - apply location_scan_none.
  - intros Hs Hpre Hc. rewrite Hs, location_scan_first; [|exact Hpre|].
    + unfold py_replace. rewrite length_app.
      change (length location_header + length rest)%nat with (S (9 + length rest)).
      rewrite replace_go_prefix; [|discriminate].
      apply replace_go_absent; [lia | exact Hc].
    + change location_header with (location_prefix ++ [32]).
      rewrite <- app_assoc. apply prefixb_app.
Qed.

Lemma location_url_first_location_line_witness :
  _get_location_url resp_txt = u "http://192.168.1.20:49152/description.xml" /\
  _get_location_url (u "HTTP/1.1 200 OK" ++ CRLF ++ u "ST: ssdp:all" ++ CRLF) = [].
Proof.
  split.
  - apply (proj2 (location_url_first_location_line resp_txt [u "HTTP/1.1 200 OK"]
                   (u "http://192.168.1.20:49152/description.xml") [[]; []])).
    + vm_compute. reflexivity.
    + repeat constructor.
    + vm_compute. reflexivity.
  - apply (proj1 (location_url_first_location_line
                   (u "HTTP/1.1 200 OK" ++ CRLF ++ u "ST: ssdp:all" ++ CRLF) [] [] [])).
    vm_compute. repeat constructor.
Defined.

(** ** Regular-expression lemmas *)

Lemma prefixb_app_split : forall a b s,
  prefixb (a ++ b) s = prefixb a s && prefixb b (skipn (length a) s).
Proof.
  induction a as [|c a IH]; intros b s; [reflexivity|].
  destruct s as [|d s]; simpl; [reflexivity|].
  rewrite IH, andb_assoc. reflexivity.
Qed.

Lemma rx_m_lit : forall p s cap k,
  rx_m (lit p) s cap k = if prefixb p s then k (skipn (length p) s) cap else None.
Proof.
  induction p as [|c p IH]; intros s cap k; [reflexivity|].
  destruct s as [|d s]; [reflexivity|]. cbn [lit fold_right rx_m].
  fold (lit p). simpl prefixb. destruct (c =? d); simpl; [apply IH | reflexivity].
Qed.

Lemma rx_m_lit_seq_some : forall p r s cap k,
  rx_m (RSeq (lit p) r) s cap k <> None -> prefixb p s = true.
Proof.
  intros p r s cap k H. simpl in H. rewrite rx_m_lit in H.
  destruct (prefixb p s); [reflexivity | congruence].
Qed.

Lemma skipn_skipn' : forall (a : nat) b (s : pystr), skipn a (skipn b s) = skipn (a + b) s.
Proof.
  intros a b. revert a. induction b as [|b IH]; intros a s.
  - rewrite Nat.add_0_r. reflexivity.
  - destruct s; [destruct a; reflexivity|]. rewrite Nat.add_succ_r. simpl. apply IH.
Qed.

Lemma rx_m_lit3_some : forall a b c r s cap k,
  rx_m (RSeq (lit a) (RSeq (lit b) (RSeq (lit c) r))) s cap k <> None ->
  prefixb (a ++ b ++ c) s = true.
Proof.
  intros a b c r s cap k H. simpl in H. rewrite rx_m_lit in H.
  rewrite prefixb_app_split.
  destruct (prefixb a s); [|congruence]. simpl in H. rewrite rx_m_lit in H.
  rewrite prefixb_app_split.
  destruct (prefixb b _); [|congruence]. simpl in H. rewrite rx_m_lit in H.
  destruct (prefixb c _); [reflexivity | congruence].
Qed.

Lemma rx_m_lit2_some : forall a b r s cap k,
  rx_m (RSeq (lit a) (RSeq (lit b) r)) s cap k <> None -> prefixb (a ++ b) s = true.
Proof.
  intros a b r s cap k H. simpl in H. rewrite rx_m_lit in H.
  rewrite prefixb_app_split.
  destruct (prefixb a s); [|congruence]. simpl in H. rewrite rx_m_lit in H.
  destruct (prefixb b _); [reflexivity | congruence].
Qed.

(** A [findall] whose pattern needs the literal [p] first finds nothing in
    a text without [p]. *)
Lemma findall_go_needs : forall p r fuel s,
  (forall t, match_at r t <> None -> prefixb p t = true) ->
  py_contains p s = false -> findall_go fuel r s = [].
Proof.
  intros p r fuel. induction fuel as [|f IH]; intros s Hr Hc; [reflexivity|].
  simpl. destruct (match_at r s) as [m|] eqn:E.
  - exfalso. assert (Hp : prefixb p s = true) by (apply Hr; congruence).
    destruct s; simpl in Hc; rewrite Hp in Hc; discriminate.
  - destruct s as [|c s]; [reflexivity|]. apply IH; [exact Hr|].
    simpl in Hc. apply orb_false_iff in Hc. tauto.
Qed.

(** X2: without [http://] in the location, [_get_port] falls back to 80. *)
Theorem get_port_default : forall location,
  py_contains (u "http://") location = false -> _get_port location = 80.
Proof.
  intros location H. unfold _get_port, findall.
  rewrite (findall_go_needs (u "http://")); [reflexivity| |exact H].
  intros t Ht. exact (rx_m_lit_seq_some _ _ _ _ _ Ht).
Qed.

(** X3: without a [<friendlyName>] tag, [_get_friendly_name] returns
    [Unknown]. *)
Theorem get_friendly_name_default : forall raw,
  py_contains (u "<friendlyName>") raw = false -> _get_friendly_name raw = u "Unknown".
Proof.
  intros raw H. unfold _get_friendly_name, findall.
  rewrite (findall_go_needs (u "<friendlyName>")); [reflexivity| |exact H].
  intros t Ht. exact (rx_m_lit_seq_some _ _ _ _ _ Ht).
Qed.








(** X4: when the newline-flattened description does not contain
    [<serviceType>urn:...:AVTransport:1</serviceType>], [_get_control_url]
    returns the empty string. *)
Theorem get_control_url_default : forall raw,
  py_contains av_service_tag (py_replace [LF] [] raw) = false ->
  _get_control_url raw = [].
Proof.
  intros raw H. unfold _get_control_url, findall.
  rewrite (findall_go_needs av_service_tag); [reflexivity| |exact H].
  intros t Ht. unfold match_at, control_url_re, rcat in Ht. cbn [fold_right] in Ht.
  exact (rx_m_lit3_some _ _ _ _ _ _ _ Ht).
Qed.


Lemma get_port_default_witness : _get_port (u "10.0.0.5/desc.xml") = 80.
Proof. apply get_port_default. vm_compute. reflexivity. Defined.

Lemma get_friendly_name_default_witness :
  _get_friendly_name (u "<root><device><modelName>X</modelName></device></root>") = u "Unknown".
Proof. apply get_friendly_name_default. vm_compute. reflexivity. Defined.

Lemma get_control_url_default_witness :
  _get_control_url
    (u "<service><serviceType>urn:schemas-upnp-org:service:RenderingControl:1</serviceType>"
     ++ [LF] ++ u "<controlURL>/rc</controlURL></service>") = [].
Proof. apply get_control_url_default. vm_compute. reflexivity. Defined.

(** ** The TCP sender *)


(** ** The discovery socket *)



(** X7: every device [discover] returns passes the name filter and was
    built by [DlnapDevice(raw, ip)] from a datagram actually read during
    the wait. *)
Theorem discover_result_origin : forall decode fetch flt evs stf mx s l s' d,
  discover decode fetch flt evs stf mx s = (Ok l, s') -> In d l ->
  name_ok flt d = Ok true /\
  exists data a, In (Readable data a) evs /\ new_device decode fetch data a = Ok d.
Proof.
  intros decode fetch flt evs stf mx s l s' d H Hin.
  apply discover_ok in H.
  destruct (loop_origin decode fetch flt evs [] l d H Hin) as [[]|R]. exact R.
Qed.

(** X8: [discover] returns a list only if no socket error was reported
    and every datagram read decoded: one [select] error or one datagram
    that is not valid UTF-8 makes it raise. *)
Theorem discover_ok_all_reached : forall decode fetch flt evs stf mx s l s',
  discover decode fetch flt evs stf mx s = (Ok l, s') ->
  Forall (fun e => reaches decode e = true) evs.
Proof.
  intros decode fetch flt evs stf mx s l s' H.
  apply discover_ok in H. eapply loop_reaches. exact H.
Qed.

Lemma discover_result_origin_witness :
  name_ok (Some (u "TV")) tv_plain = Ok true /\
  exists data a, In (Readable data a) [Idle; Readable resp_txt (u "192.168.1.20")] /\
                 new_device ascii_decode fetch_tv data a = Ok tv_plain.
Proof.
  apply (discover_result_origin ascii_decode fetch_tv (Some (u "TV"))
           [Idle; Readable resp_txt (u "192.168.1.20")] (u "ssdp:all") 3 (mkSt [] [])
           [tv_plain]
           (snd (discover ascii_decode fetch_tv (Some (u "TV"))
                   [Idle; Readable resp_txt (u "192.168.1.20")] (u "ssdp:all") 3 (mkSt [] [])))).
  - vm_compute. reflexivity.
  - left. reflexivity.
Defined.

Lemma discover_ok_all_reached_witness :
  Forall (fun e => reaches ascii_decode e = true) [Idle; Readable resp_txt (u "192.168.1.20")].
Proof.
  apply (discover_ok_all_reached ascii_decode fetch_tv None
           [Idle; Readable resp_txt (u "192.168.1.20")] (u "ssdp:all") 3 (mkSt [] [])
           [tv_plain]
           (snd (discover ascii_decode fetch_tv None
                   [Idle; Readable resp_txt (u "192.168.1.20")] (u "ssdp:all") 3 (mkSt [] [])))).
  vm_compute. reflexivity.
Defined.

(** ** Content-Length and the encoded body *)

Lemma is_ascii_app : forall a b, is_ascii (a ++ b) = is_ascii a && is_ascii b.
Proof. intros. unfold is_ascii. apply forallb_app. Qed.

Lemma is_ascii_dec_go : forall f n acc,
  is_ascii acc = true -> is_ascii (dec_go f n acc) = true.
Proof.
  induction f as [|f IH]; intros n acc H; cbn [dec_go]; [exact H|].
  assert (Hd : is_ascii (Z.of_nat (48 + n mod 10) :: acc) = true).
  { unfold is_ascii. cbn [forallb]. fold (is_ascii acc). rewrite H, andb_true_r.
    pose proof (Nat.mod_upper_bound n 10 ltac:(lia)).
    apply andb_true_intro. split; [apply Z.leb_le | apply Z.ltb_lt]; lia. }
  destruct (n / 10)%nat; [exact Hd | apply IH; exact Hd].
Qed.

Lemma is_ascii_py_str_nat : forall n, is_ascii (py_str_nat n) = true.
Proof. intros. apply is_ascii_dec_go. reflexivity. Qed.

Lemma is_ascii_join : forall sep xs,
  is_ascii sep = true -> forallb is_ascii xs = true -> is_ascii (py_join sep xs) = true.
Proof.
  intros sep [|x xs] Hs Hx; [reflexivity|]. simpl in Hx. apply andb_prop in Hx as [Hx Hxs].
  simpl. rewrite is_ascii_app, Hx. simpl.
  induction xs as [|y ys IH]; [reflexivity|]. simpl in Hxs. apply andb_prop in Hxs as [Hy Hys].
  simpl. rewrite is_ascii_app, is_ascii_app, Hs, Hy. simpl. apply IH. exact Hys.
Qed.

Lemma encode_ascii : forall s, is_ascii s = true -> encode s = s.
Proof.
  induction s as [|c s IH]; intros H; [reflexivity|].
  unfold is_ascii in H. simpl in H. apply andb_prop in H as [Hc Hs].
  apply andb_prop in Hc as [_ Hc].
  unfold encode. simpl. unfold utf8_cp at 1. rewrite Hc. simpl.
  fold (encode s). rewrite IH; [reflexivity | exact Hs].
Qed.

Lemma set_av_payload_ascii : forall url iid,
  is_ascii url = true -> is_ascii (set_av_payload url iid) = true.
Proof.
  intros url iid H. unfold set_av_payload. apply is_ascii_join; [reflexivity|].
  rewrite !forallb_app. cbn [forallb soap_head soap_tail].
  rewrite !is_ascii_app, H, is_ascii_py_str_nat. vm_compute. reflexivity.
Qed.

Lemma play_payload_ascii : forall iid, is_ascii (play_payload iid) = true.
Proof.
  intros iid. unfold play_payload. apply is_ascii_join; [reflexivity|].
  rewrite !forallb_app. cbn [forallb soap_head soap_tail].
  rewrite !is_ascii_app, is_ascii_py_str_nat. vm_compute. reflexivity.
Qed.

Lemma encode_app : forall a b, encode (a ++ b) = encode a ++ encode b.
Proof. intros. apply flat_map_app. Qed.

Lemma set_av_request_split : forall self url iid,
  set_av_request self url iid
    = py_join CRLF (firstn 8 (request_lines self (u "SetAVTransportURI") (set_av_payload url iid)))
      ++ CRLF ++ CRLF ++ set_av_payload url iid.
Proof.
  intros. unfold set_av_request, request_lines. cbn [py_join firstn flat_map].
  rewrite ?app_nil_r, <- ?app_assoc. reflexivity.
Qed.

(** X9: when the url is ASCII, the [Content-Length] header of the
    SetAVTransportURI request is the number of bytes of the encoded
    payload, and the encoded request ends with the blank line followed
    by exactly those bytes. *)
Theorem set_av_content_length_ascii : forall self url iid,
  is_ascii url = true ->
  nth 5 (request_lines self (u "SetAVTransportURI") (set_av_payload url iid)) []
    = u "Content-Length: " ++ py_str_nat (length (encode (set_av_payload url iid))) /\
  exists head, encode (set_av_request self url iid)
               = head ++ encode (CRLF ++ CRLF) ++ encode (set_av_payload url iid).
Proof.
  intros self url iid H. split.
  - cbn [nth request_lines].
    rewrite encode_ascii; [reflexivity | apply set_av_payload_ascii; exact H].
  - exists (encode (py_join CRLF (firstn 8 (request_lines self (u "SetAVTransportURI")
                                                (set_av_payload url iid))))).
    rewrite set_av_request_split, !encode_app, <- !app_assoc. reflexivity.
Qed.

(** X10: the [Content-Length] header of the Play request always equals
    the byte length of its payload: the payload is ASCII whatever the
    instance id. *)
Theorem play_content_length_exact : forall self iid,
  nth 5 (request_lines self (u "Play") (play_payload iid)) []
    = u "Content-Length: " ++ py_str_nat (length (encode (play_payload iid))).
Proof.
  intros self iid. cbn [nth request_lines]. rewrite encode_ascii; [reflexivity | apply play_payload_ascii].
Qed.

Lemma set_av_content_length_ascii_witness :
  is_ascii (u "http://10.0.0.2:8000/movie.mp4") = true /\
  (nth 5 (request_lines tv (u "SetAVTransportURI") (set_av_payload (u "http://10.0.0.2:8000/movie.mp4") 0)) []
    = u "Content-Length: " ++ py_str_nat (length (encode (set_av_payload (u "http://10.0.0.2:8000/movie.mp4") 0))) /\
   exists head, encode (set_av_request tv (u "http://10.0.0.2:8000/movie.mp4") 0)
               = head ++ encode (CRLF ++ CRLF) ++ encode (set_av_payload (u "http://10.0.0.2:8000/movie.mp4") 0)).
Proof.
  split; [vm_compute; reflexivity|].
  apply set_av_content_length_ascii. vm_compute. reflexivity.
Defined.

(** ** The command line *)

Lemma search_encodes :
  py_encode (search_payload (u "ssdp:all") 3) = Some (encode (search_payload (u "ssdp:all") 3)).
Proof. vm_compute. reflexivity. Qed.

Lemma exits_early_false : forall opt,
  exits_early opt = false ->
  in_tuple opt [u "-h"; u "--help"] = false /\ in_tuple opt [u "-v"; u "--version"] = false.
Proof.
  intros opt. unfold exits_early, in_tuple. cbn [existsb].
  destruct (str_eqb opt (u "-h")), (str_eqb opt (u "--help")),
           (str_eqb opt (u "-v")), (str_eqb opt (u "--version")); cbn; try discriminate.
  intros _. split; reflexivity.
Qed.

Lemma process_opts_step : forall opt arg rest c,
  exits_early opt = false ->
  exists c2, process_opts ((opt, arg) :: rest) c = process_opts rest c2 /\
    cli_timeout c2 = (if in_tuple opt [u "-d"; u "--device"] then cli_timeout c
                      else if in_tuple opt [u "-t"; u "--timeout"] then TStr arg
                      else cli_timeout c).
Proof.
  intros opt arg rest c H. apply exits_early_false in H as [H1 H2].
  cbn [process_opts]. rewrite H1, H2.
  destruct (in_tuple opt [u "-d"; u "--device"]), (in_tuple opt [u "-t"; u "--timeout"]),
           (py_contains opt (u "--list")), (py_contains opt (u "--play")),
           (py_contains opt (u "--pause")), (py_contains opt (u "--stop"));
    eexists; split; reflexivity.
Qed.



Lemma process_opts_keep : forall post c,
  Forall (fun p => In (fst p) [u "-d"; u "--device"; u "-t"; u "--timeout"]) post ->
  exists c', process_opts post c = OptsDone c' /\
             cli_action c' = cli_action c /\ cli_url c' = cli_url c.
Proof.
  induction post as [|[opt arg] post IH]; intros c Hf.
  - exists c. auto.
  - inversion Hf as [|? ? Hx Hr]; subst. simpl in Hx.
    destruct Hx as [<-|[<-|[<-|[<-|[]]]]].
    + change (process_opts ((u "-d", arg) :: post) c)
        with (process_opts post (mkCli arg (cli_url c) (cli_timeout c) (cli_action c))).
      destruct (IH (mkCli arg (cli_url c) (cli_timeout c) (cli_action c)) Hr)
        as (c' & H1 & H2 & H3). eauto.
    + change (process_opts ((u "--device", arg) :: post) c)
        with (process_opts post (mkCli arg (cli_url c) (cli_timeout c) (cli_action c))).
      destruct (IH (mkCli arg (cli_url c) (cli_timeout c) (cli_action c)) Hr)
        as (c' & H1 & H2 & H3). eauto.
    + change (process_opts ((u "-t", arg) :: post) c)
        with (process_opts post (mkCli (cli_device c) (cli_url c) (TStr arg) (cli_action c))).
      destruct (IH (mkCli (cli_device c) (cli_url c) (TStr arg) (cli_action c)) Hr)
        as (c' & H1 & H2 & H3). eauto.
    + change (process_opts ((u "--timeout", arg) :: post) c)
        with (process_opts post (mkCli (cli_device c) (cli_url c) (TStr arg) (cli_action c))).
      destruct (IH (mkCli (cli_device c) (cli_url c) (TStr arg) (cli_action c)) Hr)
        as (c' & H1 & H2 & H3). eauto.
Qed.

(** X11: the action tests [opt in ('--list')] and the like are
    substring tests, but for every option name [getopt] can return they
    agree with equality: no option is mistaken for an action. *)
Theorem action_tests_exact_on_getopt_names : forall opt,
  In opt getopt_names ->
  py_contains opt (u "--list") = str_eqb opt (u "--list") /\
  py_contains opt (u "--play") = str_eqb opt (u "--play") /\
  py_contains opt (u "--pause") = str_eqb opt (u "--pause") /\
  py_contains opt (u "--stop") = str_eqb opt (u "--stop").
Proof.
  intros opt H. unfold getopt_names in H.
  repeat (destruct H as [<-|H]; [repeat split; vm_compute; reflexivity|]).
  destruct H.
Qed.

(** X12: a [-h]/[--help]/[-v]/[--version] option ends the option loop
    with exit status 0, whatever options come before or after it. *)
Theorem help_or_version_exits_zero : forall pre opt arg post c,
  exits_early opt = true ->
  process_opts (pre ++ (opt, arg) :: post) c = OptsExit 0.
Proof.
  intros pre opt arg post. induction pre as [|[o a] pre IH]; intros c H.
  - unfold exits_early, in_tuple in H. cbn [existsb] in H.
    cbn [app process_opts]. unfold in_tuple. cbn [existsb].
    destruct (str_eqb opt (u "-h")), (str_eqb opt (u "--help")),
             (str_eqb opt (u "-v")), (str_eqb opt (u "--version"));
      cbn; try reflexivity; discriminate.
  - cbn [app process_opts].
    destruct (in_tuple o [u "-h"; u "--help"]); [reflexivity|].
    destruct (in_tuple o [u "-v"; u "--version"]); [reflexivity|].
    apply IH. exact H.
Qed.

(** X13: after a [--play url] option followed only by device and
    timeout options, the loop ends with the action [play] and that url,
    whatever the options before it (other than help and version). *)
Theorem play_option_sets_action_and_url : forall pre url post c,
  Forall (fun p => exits_early (fst p) = false) pre ->
  Forall (fun p => In (fst p) [u "-d"; u "--device"; u "-t"; u "--timeout"]) post ->
  exists c', process_opts (pre ++ (u "--play", url) :: post) c = OptsDone c' /\
             cli_action c' = u "play" /\ cli_url c' = url.
Proof.
  induction pre as [|[opt a] pre IH]; intros url post c Hpre Hpost.
  - change (process_opts ([] ++ (u "--play", url) :: post) c)
      with (process_opts post (mkCli (cli_device c) url (cli_timeout c) (u "play"))).
    destruct (process_opts_keep post (mkCli (cli_device c) url (cli_timeout c) (u "play")) Hpost)
      as (c' & H1 & H2 & H3). eauto.
  - inversion Hpre as [|? ? Hx Hr]; subst. simpl in Hx.
    change (((opt, a) :: pre) ++ (u "--play", url) :: post)
      with ((opt, a) :: (pre ++ (u "--play", url) :: post)).
    destruct (process_opts_step opt a (pre ++ (u "--play", url) :: post) c Hx) as (c2 & Hc2 & _).
    rewrite Hc2. apply IH; assumption.
Qed.


(** X15: with the default timeout, when discovery returns no device the
    script exits with status 1 after closing the discovery socket. *)
Theorem no_device_exits_one : forall decode fetch opts c evs l net,
  process_opts opts cli_default = OptsDone c ->
  cli_timeout c = TFloat ->
  discover_loop decode fetch (Some (cli_device c)) evs [] = Ok [] ->
  main decode fetch (Some opts) evs (mkSt l net)
    = (Ok (MainExit 1),
       mkSt (l ++ [UdpOpen; UdpSendTo SSDP_GROUP (encode (search_payload (u "ssdp:all") 3));
                   UdpClose]) net).
Proof.
  intros decode fetch opts c evs l net Hp Ht Hl.
  unfold main. cbv beta iota. rewrite Hp. unfold discover_cli. rewrite Ht.
  unfold discover. rewrite Hl.
  cbv [with_gen _send_udp_enter]. rewrite search_encodes.
  cbv [_send_udp_exit bind emit lift ret st_log st_net].
  rewrite <- !app_assoc. reflexivity.
Qed.

(** X16: the [pause] and [stop] actions fail with [AttributeError]
    once a device is found ([DlnapDevice] has no such methods): the
    discovery socket is closed and no command is sent ([_send_tcp] is
    never called; only the description fetches of [urlopen], outside
    this log, have used the network). *)
Theorem pause_stop_attribute_error : forall decode fetch opts c evs d ds l net,
  process_opts opts cli_default = OptsDone c ->
  cli_timeout c = TFloat ->
  cli_action c = u "pause" \/ cli_action c = u "stop" ->
  discover_loop decode fetch (Some (cli_device c)) evs [] = Ok (d :: ds) ->
  main decode fetch (Some opts) evs (mkSt l net)
    = (Ok MainAttributeError,
       mkSt (l ++ [UdpOpen; UdpSendTo SSDP_GROUP (encode (search_payload (u "ssdp:all") 3));
                   UdpClose]) net).
Proof.
  intros decode fetch opts c evs d ds l net Hp Ht Ha Hl.
  unfold main. cbv beta iota. rewrite Hp. unfold discover_cli. rewrite Ht.
  unfold discover. rewrite Hl.
  cbv [with_gen _send_udp_enter]. rewrite search_encodes.
  cbv [_send_udp_exit bind emit lift ret st_log st_net].
  rewrite <- !app_assoc.
  destruct Ha as [Ha|Ha]; rewrite Ha; reflexivity.
Qed.

(** X17: with the default timeout and the [play] action, the script
    closes the discovery socket, then runs [play(url)] on the first
    device found and ends normally exactly when [play] does. *)
Theorem main_plays_first_device : forall decode fetch opts c evs d ds l net,
  process_opts opts cli_default = OptsDone c ->
  cli_timeout c = TFloat ->
  cli_action c = u "play" ->
  discover_loop decode fetch (Some (cli_device c)) evs [] = Ok (d :: ds) ->
  main decode fetch (Some opts) evs (mkSt l net)
    = match play d (cli_url c)
              (mkSt (l ++ [UdpOpen; UdpSendTo SSDP_GROUP (encode (search_payload (u "ssdp:all") 3));
                           UdpClose]) net) with
      | (Ok _, s') => (Ok MainReturn, s')
      | (Raise e, s') => (Raise e, s')
      end.
Proof.
  intros decode fetch opts c evs d ds l net Hp Ht Ha Hl.
  unfold main. cbv beta iota. rewrite Hp. unfold discover_cli. rewrite Ht.
  unfold discover. rewrite Hl.
  cbv [with_gen _send_udp_enter]. rewrite search_encodes.
  cbv [_send_udp_exit bind emit lift ret st_log st_net].
  rewrite <- !app_assoc. cbn [app]. rewrite Ha.
  change (in_tuple (u "play") [[]; u "list"]) with false.
  change (str_eqb (u "play") (u "play")) with true. cbv iota.
  reflexivity.
Qed.

Lemma action_tests_exact_on_getopt_names_witness :
  py_contains (u "--stop") (u "--list") = str_eqb (u "--stop") (u "--list") /\
  py_contains (u "--stop") (u "--play") = str_eqb (u "--stop") (u "--play") /\
  py_contains (u "--stop") (u "--pause") = str_eqb (u "--stop") (u "--pause") /\
  py_contains (u "--stop") (u "--stop") = str_eqb (u "--stop") (u "--stop").
Proof.
  apply action_tests_exact_on_getopt_names. unfold getopt_names.
  do 8 right. left. reflexivity.
Defined.

Lemma help_or_version_exits_zero_witness :
  process_opts ([(u "-d", u "TV"); (u "--play", u "http://10.0.0.2/a.mp4")] ++
                (u "--version", []) :: [(u "-t", u "5")]) cli_default = OptsExit 0.
Proof. apply help_or_version_exits_zero. vm_compute. reflexivity. Defined.

Lemma play_option_sets_action_and_url_witness :
  exists c', process_opts ([(u "-d", u "TV"); (u "--pause", [])] ++
                           (u "--play", u "http://10.0.0.2/a.mp4") :: [(u "-d", u "Kitchen")])
                          cli_default = OptsDone c' /\
             cli_action c' = u "play" /\ cli_url c' = u "http://10.0.0.2/a.mp4".
Proof.
  apply play_option_sets_action_and_url.
  - constructor; [vm_compute; reflexivity|]. constructor; [vm_compute; reflexivity|]. constructor.
  - constructor; [left; reflexivity | constructor].
Defined.


Lemma no_device_exits_one_witness :
  main ascii_decode fetch_fails (Some []) [Idle; Idle] (mkSt [] [])
    = (Ok (MainExit 1),
       mkSt ([] ++ [UdpOpen; UdpSendTo SSDP_GROUP (encode (search_payload (u "ssdp:all") 3));
                    UdpClose]) []).
Proof.
  apply (no_device_exits_one ascii_decode fetch_fails [] cli_default); vm_compute; reflexivity.
Defined.

Lemma pause_stop_attribute_error_witness :
  main ascii_decode fetch_tv (Some [(u "--pause", [])]) [Readable resp_txt (u "192.168.1.20")]
       (mkSt [] [])
    = (Ok MainAttributeError,
       mkSt ([] ++ [UdpOpen; UdpSendTo SSDP_GROUP (encode (search_payload (u "ssdp:all") 3));
                    UdpClose]) []).
Proof.
  apply (pause_stop_attribute_error ascii_decode fetch_tv [(u "--pause", [])]
           (mkCli [] [] TFloat (u "pause")) [Readable resp_txt (u "192.168.1.20")] tv_plain []).
  - vm_compute. reflexivity.
  - reflexivity.
  - left. reflexivity.
  - vm_compute. reflexivity.
Defined.

Lemma main_plays_first_device_witness :
  main ascii_decode fetch_tv (Some [(u "--play", u "http://10.0.0.2/a.mp4")])
       [Readable resp_txt (u "192.168.1.20")] (mkSt [] [true; false])
    = match play tv_plain (u "http://10.0.0.2/a.mp4")
              (mkSt ([] ++ [UdpOpen; UdpSendTo SSDP_GROUP (encode (search_payload (u "ssdp:all") 3));
                            UdpClose]) [true; false]) with
      | (Ok _, s') => (Ok MainReturn, s')
      | (Raise e, s') => (Raise e, s')
      end.
Proof.
  apply (main_plays_first_device ascii_decode fetch_tv [(u "--play", u "http://10.0.0.2/a.mp4")]
           (mkCli [] (u "http://10.0.0.2/a.mp4") TFloat (u "play"))
           [Readable resp_txt (u "192.168.1.20")] tv_plain []).
  - vm_compute. reflexivity.
  - reflexivity.
  - reflexivity.
  - vm_compute. reflexivity.
Defined.

(** ** Requests to discovered devices *)

Lemma new_device_port : forall decode fetch raw a d,
  new_device decode fetch raw a = Ok d ->
  port d = Some (_get_port (location d)) /\ ip d = a.
Proof.
  intros decode fetch raw a d H. unfold new_device in H.
  destruct (decode raw) as [txt|]; [|discriminate].
  destruct (fetch _); injection H as <-; split; reflexivity.
Qed.

(** X18: every device [discover] returns has its ip from the datagram's
    sender and the port parsed from its own location, never [None]: the
    [HOST] header of a command to it always carries [ip:port]. *)
Theorem discover_devices_host_header : forall decode fetch flt evs stf mx s l s' d action payload,
  discover decode fetch flt evs stf mx s = (Ok l, s') -> In d l ->
  (exists data, In (Readable data (ip d)) evs) /\
  port d = Some (_get_port (location d)) /\
  nth 4 (request_lines d action payload) []
    = u "HOST: " ++ ip d ++ u ":" ++ py_str_nat (Z.to_nat (_get_port (location d))).
Proof.
  intros decode fetch flt evs stf mx s l s' d action payload H Hin.
  apply discover_ok in H.
  destruct (loop_origin decode fetch flt evs [] l d H Hin) as [[]|(_ & data & a & Hi & Hd)].
  destruct (new_device_port _ _ _ _ _ Hd) as [Hp Ha]. subst a.
  split; [eauto|]. split; [exact Hp|].
  cbn [nth request_lines]. rewrite Hp. reflexivity.
Qed.


Lemma discover_devices_host_header_witness :
  (exists data, In (Readable data (ip tv_plain)) [Idle; Readable resp_txt (u "192.168.1.20")]) /\
  port tv_plain = Some (_get_port (location tv_plain)) /\
  nth 4 (request_lines tv_plain (u "Play") (play_payload 0)) []
    = u "HOST: " ++ ip tv_plain ++ u ":" ++ py_str_nat (Z.to_nat (_get_port (location tv_plain))).
Proof.
  apply (discover_devices_host_header ascii_decode fetch_tv None
           [Idle; Readable resp_txt (u "192.168.1.20")] (u "ssdp:all") 3 (mkSt [] [])
           [tv_plain]
           (snd (discover ascii_decode fetch_tv None
                   [Idle; Readable resp_txt (u "192.168.1.20")] (u "ssdp:all") 3 (mkSt [] [])))).
  - vm_compute. reflexivity.
  - left. reflexivity.
Defined.

